(** * Currency tools of the reliability agent (Day_2/D2_TC2_Improving_Agent_Reliability_with_Code.py)

    Shallow embedding of the two function tools [get_fee_for_payment_method]
    and [get_exchange_rate] that the currency agent calls, together with the
    small piece of Python they rely on: [str.lower], [dict.get] with and
    without a default, and dict literals.

    Modelling choices:
    - a Python [str] is a [string] whose characters are Latin-1 code points
      (one byte each); [str.lower] is written out on that range exactly as
      Python performs it (A-Z and the Latin-1 capitals U+00C0..U+00DE except
      U+00D7 move up by 32, everything else is unchanged);
    - a Python [float] literal is the rational number it is written as;
    - a Python [dict] with string keys is a [gmap string V];
    - evaluation of Python code happens in the exception monad [PyResult],
      so that an operation that can raise (subscripting a missing key) is
      visible in the types, and one that cannot ([dict.get]) is visibly total. *)

From Stdlib Require Import Ascii String QArith.
From stdpp Require Import base gmap strings list fin_maps.

Open Scope string_scope.

(* ------------------------------------------------------------------ *)
(** ** Python values, exceptions and the evaluation monad *)

Inductive PyExn :=
  | KeyError (key : string).

Inductive PyResult (A : Type) :=
  | Ok (a : A)
  | Raise (e : PyExn).
Arguments Ok {A} a.
Arguments Raise {A} e.

#[global] Instance py_ret : MRet PyResult := fun A a => Ok a.
#[global] Instance py_bind : MBind PyResult :=
  fun A B k m => match m with Ok a => k a | Raise e => Raise e end.

(** The values that occur in the tools' dictionaries. *)
Inductive pyval :=
  | PStr (s : string)
  | PFloat (q : Q).

(** A dict literal [{k1: v1, k2: v2, ...}] with distinct keys. *)
Definition dict_of {V} (kvs : list (string * V)) : gmap string V :=
  list_to_map kvs.

(** [d.get(k)]: never raises, [None] for a missing key. *)
Definition dict_get {V} (d : gmap string V) (k : string) : PyResult (option V) :=
  Ok (d !! k).

(** [d.get(k, default)]. *)
Definition dict_get_default {V} (d : gmap string V) (k : string) (dflt : V)
  : PyResult V :=
  Ok (default dflt (d !! k)).

(** [d[k]]: raises [KeyError] for a missing key. *)
Definition dict_getitem {V} (d : gmap string V) (k : string) : PyResult V :=
  match d !! k with Some v => Ok v | None => Raise (KeyError k) end.

(** [str.lower()] on one Latin-1 character. *)
Definition lower_char (c : ascii) : ascii :=
  let n := nat_of_ascii c in
  if (((65 <=? n) && (n <=? 90))
      || ((192 <=? n) && (n <=? 222) && negb (n =? 215)))%nat%bool
  then ascii_of_nat (n + 32)%nat else c.

(** [str.lower()]. *)
Fixpoint py_lower (s : string) : string :=
  match s with
  | EmptyString => EmptyString
  | String c s' => String (lower_char c) (py_lower s')
  end.

(* ------------------------------------------------------------------ *)
(** ** The tools *)

(** [fee_database] (lines 106-110). *)
Definition fee_database : gmap string Q :=
  dict_of [("platinum credit card", 0.02%Q);
           ("gold debit card", 0.035%Q);
           ("bank transfer", 0.01%Q)].

(** [get_fee_for_payment_method] (lines 90-119). *)
Definition get_fee_for_payment_method (method : string)
  : PyResult (gmap string pyval) :=
  fee ← dict_get fee_database (py_lower method);
  match fee with
  | Some fee =>
      mret (dict_of [("status", PStr "success"); ("fee_percentage", PFloat fee)])
  | None =>
      mret (dict_of [("status", PStr "error");
                     ("error_message",
                       PStr ("Payment method '" ++ method ++ "' not found"))])
  end.

(** [rate_database] (lines 143-149). *)
Definition rate_database : gmap string (gmap string Q) :=
  dict_of [("usd", dict_of [("eur", 0.93%Q); ("jpy", 157.50%Q); ("inr", 83.58%Q)])].

(** [get_exchange_rate] (lines 126-163). *)
Definition get_exchange_rate (base_currency target_currency : string)
  : PyResult (gmap string pyval) :=
  let base := py_lower base_currency in
  let target := py_lower target_currency in
  inner ← dict_get_default rate_database base ∅;
  rate ← dict_get inner target;
  match rate with
  | Some rate =>
      mret (dict_of [("status", PStr "success"); ("rate", PFloat rate)])
  | None =>
      mret (dict_of [("status", PStr "error");
                     ("error_message",
                       PStr ("Unsupported currency pair: " ++ base_currency
                             ++ "/" ++ target_currency))])
  end.

Example fee_bank : get_fee_for_payment_method "Bank Transfer"
  = Ok (dict_of [("status", PStr "success"); ("fee_percentage", PFloat 0.01%Q)]).
Proof. vm_compute. reflexivity. Qed.

Example rate_usd_inr : get_exchange_rate "USD" "INR"
  = Ok (dict_of [("status", PStr "success"); ("rate", PFloat 83.58%Q)]).
Proof. vm_compute. reflexivity. Qed.

(** The success or error value of a tool result, with the lowering of the
    strings it carries (used to compare messages up to letter case). *)
Definition lower_val (v : pyval) : pyval :=
  match v with PStr s => PStr (py_lower s) | PFloat q => PFloat q end.

(** The rate table [rate_database.get(base, {})] selects. *)
Definition usd_rates : gmap string Q :=
  dict_of [("eur", 0.93%Q); ("jpy", 157.50%Q); ("inr", 83.58%Q)].

(* ------------------------------------------------------------------ *)
(** ** Lemmas on [str.lower] and the tables *)

Lemma lower_char_idem (c : ascii) : lower_char (lower_char c) = lower_char c.
Proof.
  destruct c as [b0 b1 b2 b3 b4 b5 b6 b7].
  destruct b0, b1, b2, b3, b4, b5, b6, b7; reflexivity.
Qed.

Lemma py_lower_idem (s : string) : py_lower (py_lower s) = py_lower s.
Proof. induction s as [|c s IH]; simpl; [done | by rewrite lower_char_idem, IH]. Qed.

Lemma py_lower_app (s1 s2 : string) :
  py_lower (s1 ++ s2) = py_lower s1 ++ py_lower s2.
Proof. induction s1 as [|c s1 IH]; simpl; [done | by rewrite IH]. Qed.


Lemma rate_database_lookup (k : string) :
  rate_database !! k = if decide (k = "usd") then Some usd_rates else None.
Proof.
  unfold rate_database, dict_of; simpl.
  rewrite lookup_insert, lookup_empty.
  repeat case_decide; subst; done.
Qed.

Lemma usd_rates_lookup (k : string) :
  usd_rates !! k =
    if decide (k = "eur") then Some 0.93%Q
    else if decide (k = "jpy") then Some 157.50%Q
    else if decide (k = "inr") then Some 83.58%Q
    else None.
Proof.
  unfold usd_rates, dict_of; simpl.
  rewrite !lookup_insert, lookup_empty.
  repeat case_decide; subst; done.
Qed.

(** Both tools evaluate without raising, to the dict built from one table
    lookup. *)
Lemma get_fee_for_payment_method_eq (method : string) :
  get_fee_for_payment_method method =
    Ok match fee_database !! py_lower method with
       | Some fee =>
           dict_of [("status", PStr "success"); ("fee_percentage", PFloat fee)]
       | None =>
           dict_of [("status", PStr "error");
                    ("error_message",
                      PStr ("Payment method '" ++ method ++ "' not found"))]
       end.
Proof. unfold get_fee_for_payment_method, dict_get. simpl. by destruct (_ !! _). Qed.

Lemma get_exchange_rate_eq (b t : string) :
  get_exchange_rate b t =
    Ok match default ∅ (rate_database !! py_lower b) !! py_lower t with
       | Some rate =>
           dict_of [("status", PStr "success"); ("rate", PFloat rate)]
       | None =>
           dict_of [("status", PStr "error");
                    ("error_message",
                      PStr ("Unsupported currency pair: " ++ b ++ "/" ++ t))]
       end.
Proof.
  unfold get_exchange_rate, dict_get, dict_get_default. simpl.
  by destruct (_ !! py_lower t).
Qed.

(* ------------------------------------------------------------------ *)
(** ** Claims *)

(** C5: for every input, each tool returns (never raises) a dict whose
    ["status"] is ["success"] or ["error"]; ["success"] carries the value
    looked up in the table ([fee_percentage], [rate]) and ["error"], reported
    exactly when the lookup fails, carries an [error_message]. *)
Theorem tools_status_normalized :
  (forall method : string, exists d,
     get_fee_for_payment_method method = Ok d /\
     ((exists fee, fee_database !! py_lower method = Some fee /\
         d !! "status" = Some (PStr "success") /\
         d !! "fee_percentage" = Some (PFloat fee)) \/
      (fee_database !! py_lower method = None /\
         d !! "status" = Some (PStr "error") /\
         exists msg, d !! "error_message" = Some (PStr msg)))) /\
  (forall base_currency target_currency : string, exists d,
     get_exchange_rate base_currency target_currency = Ok d /\
     ((exists rate,
         default ∅ (rate_database !! py_lower base_currency)
           !! py_lower target_currency = Some rate /\
         d !! "status" = Some (PStr "success") /\
         d !! "rate" = Some (PFloat rate)) \/
      (default ∅ (rate_database !! py_lower base_currency)
           !! py_lower target_currency = None /\
         d !! "status" = Some (PStr "error") /\
         exists msg, d !! "error_message" = Some (PStr msg)))).
Proof.
  split.
  - intros method. rewrite get_fee_for_payment_method_eq.
    eexists; split; [reflexivity|].
    destruct (fee_database !! py_lower method) as [fee|] eqn:E.
    + left. exists fee. repeat split; reflexivity.
    + right. split; [done|]. split; [reflexivity|]. eexists; reflexivity.
  - intros b t. rewrite get_exchange_rate_eq.
    eexists; split; [reflexivity|].
    destruct (default ∅ (rate_database !! py_lower b) !! py_lower t) as [r|] eqn:E.
    + left. exists r. repeat split; reflexivity.
    + right. split; [done|]. split; [reflexivity|]. eexists; reflexivity.
Qed.

(** C9: [get_exchange_rate] is total over all pairs of strings, including
    a base currency absent from [rate_database] (the nested
    [rate_database.get(base, {}).get(target)] never raises), its status is
    always ["success"] or ["error"], and it is ["success"] exactly for the
    pairs whose lower-cased forms are usd/eur, usd/jpy and usd/inr. *)
Theorem get_exchange_rate_total_success_pairs :
  forall base_currency target_currency : string, exists d,
    get_exchange_rate base_currency target_currency = Ok d /\
    (d !! "status" = Some (PStr "success") \/ d !! "status" = Some (PStr "error")) /\
    (d !! "status" = Some (PStr "success") <->
       py_lower base_currency = "usd" /\
       (py_lower target_currency = "eur" \/ py_lower target_currency = "jpy" \/
        py_lower target_currency = "inr")).
Proof.
  intros b t. rewrite get_exchange_rate_eq.
  eexists; split; [reflexivity|].
  rewrite rate_database_lookup.
  case_decide as Hb; simpl.
  - rewrite usd_rates_lookup.
    repeat case_decide; simpl; (split; [by (left; reflexivity) || (right; reflexivity)|]);
      split; intros Hs; try (vm_compute in Hs; congruence); try reflexivity;
      intuition congruence.
  - rewrite lookup_empty.
    split; [right; reflexivity|].
    split; intros Hs; [vm_compute in Hs; congruence | tauto].
Qed.

(** C10: both tools are case-insensitive in their string arguments: the
    result on the arguments and on their lower-cased forms is the same dict
    apart from the ["error_message"] entry, and that entry is the same up to
    letter case (it echoes the arguments as given). In particular the status
    and the looked-up number never depend on letter case. *)
Theorem tools_case_insensitive :
  (forall method : string, exists d1 d2,
     get_fee_for_payment_method method = Ok d1 /\
     get_fee_for_payment_method (py_lower method) = Ok d2 /\
     delete "error_message" d1 = delete "error_message" d2 /\
     lower_val <$> d1 !! "error_message" = lower_val <$> d2 !! "error_message") /\
  (forall base_currency target_currency : string, exists d1 d2,
     get_exchange_rate base_currency target_currency = Ok d1 /\
     get_exchange_rate (py_lower base_currency) (py_lower target_currency) = Ok d2 /\
     delete "error_message" d1 = delete "error_message" d2 /\
     lower_val <$> d1 !! "error_message" = lower_val <$> d2 !! "error_message").
Proof.
  split.
  - intros m. rewrite !get_fee_for_payment_method_eq, py_lower_idem.
    do 2 eexists; split; [reflexivity|]; split; [reflexivity|].
    destruct (fee_database !! py_lower m); [split; reflexivity|].
    split; [vm_compute; reflexivity|].
    unfold dict_of; cbn [list_to_map fold_right fst snd].
    rewrite lookup_insert_ne by done. rewrite lookup_insert_eq.
    rewrite lookup_insert_ne by done. rewrite lookup_insert_eq.
    refine (f_equal (fun s => Some (PStr s)) _).
    rewrite !py_lower_app, py_lower_idem. reflexivity.
  - intros b t. rewrite !get_exchange_rate_eq, !py_lower_idem.
    do 2 eexists; split; [reflexivity|]; split; [reflexivity|].
    destruct (_ !! py_lower t); [split; reflexivity|].
    split; [vm_compute; reflexivity|].
    unfold dict_of; cbn [list_to_map fold_right fst snd].
    rewrite lookup_insert_ne by done. rewrite lookup_insert_eq.
    rewrite lookup_insert_ne by done. rewrite lookup_insert_eq.
    refine (f_equal (fun s => Some (PStr s)) _).
    rewrite !py_lower_app, !py_lower_idem. reflexivity.
Qed.

(* ================================================================== *)
(** * The repository's helper code around the agents

    The remaining pure logic of the repository: the code-executor printer
    [show_python_code_and_result] (Day_2), the [run_session] helpers
    (Day_3), [get_adk_proxy_url] (Day_1/TC1a.py) and the API-key lookup
    every script starts with. The ADK services they call are inputs of the
    model (records of functions), so the results hold whatever those
    services do. *)

(** ** More of Python: exceptions, [print], [str.split], [str.replace], [in] *)

(** The exceptions the helper code can raise or catch. [Exn] lifts the
    exceptions of the dict model above. *)
Inductive PyError :=
  | Exn (e : PyExn)
  | AttributeError (attr : string)
  | TypeError (msg : string)
  | IndexError
  | RuntimeError (msg : string)
  | ValueError (msg : string)
  | Exception (msg : string).

(** [print(a1, a2, ...)]: the arguments joined by single spaces. *)
Definition py_print (args : list string) : string := String.concat " " args.

(** [s.split(sep)] for a one-character separator. *)
Fixpoint py_split (sep : ascii) (s : string) : list string :=
  match s with
  | EmptyString => [EmptyString]
  | String c s' =>
      let parts := py_split sep s' in
      if Ascii.eqb c sep then EmptyString :: parts
      else match parts with
           | p :: ps => String c p :: ps
           | [] => [String c EmptyString]
           end
  end.

(** [sub in s] for strings. *)
Definition py_contains (sub s : string) : bool :=
  match String.index 0 sub s with Some _ => true | None => false end.

(** [s.replace(old, new)] for a non-empty [old]: left to right, each
    occurrence replaced, occurrences not overlapping. [fuel] bounds the
    number of steps; each step consumes at least one character. *)
Fixpoint py_replace_fuel (fuel : nat) (old new s : string) : string :=
  match fuel with
  | O => s
  | S fuel' =>
      match s with
      | EmptyString => EmptyString
      | String c s' =>
          if String.prefix old s
          then new ++ py_replace_fuel fuel' old new
                        (String.substring (String.length old) (String.length s) s)
          else String c (py_replace_fuel fuel' old new s')
      end
  end.

Definition py_replace (old new s : string) : string :=
  py_replace_fuel (String.length s) old new s.

Example py_split_url : py_split "/" "/k/ker/tok/" = [""; "k"; "ker"; "tok"; ""].
Proof. reflexivity. Qed.

Example py_replace_code : py_replace "tool_code" "" "tool_code
print(1)" = "
print(1)".
Proof. reflexivity. Qed.

(** ** The events the runner yields (google.genai types, as the code reads them) *)

(** [types.FunctionResponse]: [response] is the tool's result dict, here the
    code executor's, whose values are strings. *)
Record FunctionResponse := { fr_response : option (gmap string string) }.

(** [types.Part]: a text part or a function response. *)
Record Part := {
  part_text : option string;
  part_function_response : option FunctionResponse }.

(** [types.Content]. *)
Record Content := {
  content_role : option string;
  content_parts : option (list Part) }.

(** [Event]: its [content], and the value its [is_final_response()] method
    returns. *)
Record Event := {
  ev_content : option Content;
  ev_final_response : bool }.

(** ** [show_python_code_and_result] (Day_2, lines 49-66) *)

(** The result string the printer looks at in one event, when the guard of
    lines 52-57 and the test of line 59 let it through; an [AttributeError]
    when the event has no [content] ([response[i].content.parts] on [None]).
    [parts[0]] is a [Part] object, always truthy; a [None] or empty
    [response] dict is falsy. *)
Definition code_result (e : Event) : PyError + option string :=
  match ev_content e with
  | None => inl (AttributeError "parts")
  | Some c =>
      match content_parts c with
      | None | Some [] => inr None
      | Some (p :: _) =>
          match part_function_response p with
          | None => inr None
          | Some fr =>
              match fr_response fr with
              | None => inr None
              | Some rc =>
                  if decide (rc = ∅) then inr None
                  else match rc !! "result" with
                       | Some r => if String.eqb r "```" then inr None else inr (Some r)
                       | None => inr None
                       end
              end
          end
      end
  end.

(** The line printed for a result (lines 60-66). *)
Definition code_line (r : string) : string :=
  if py_contains "tool_code" r
  then py_print ["Generated Python Code >> "; py_replace "tool_code" "" r]
  else py_print ["Generated Python Response >> "; r].

(** The loop of lines 50-66: the lines printed, and the exception that
    stopped it, if any. *)
Fixpoint show_python_code_and_result (response : list Event)
  : list string * option PyError :=
  match response with
  | [] => ([], None)
  | e :: es =>
      match code_result e with
      | inl err => ([], Some err)
      | inr out =>
          let '(rest, err) := show_python_code_and_result es in
          (app (match out with Some r => [code_line r] | None => [] end) rest, err)
      end
  end.

(** *** Properties of [show_python_code_and_result] *)

Lemma code_result_none_content (e : Event) :
  ev_content e = None <-> code_result e = inl (AttributeError "parts").
Proof.
  unfold code_result. split; [by intros ->|].
  destruct (ev_content e) as [c|]; [|done].
  destruct (content_parts c) as [[|p ps]|]; try done.
  destruct (part_function_response p) as [fr|]; [|done].
  destruct (fr_response fr) as [rc|]; [|done].
  case_decide; [done|]. destruct (rc !! "result"); [|done].
  by destruct (String.eqb _ _).
Qed.

Lemma code_result_content (e : Event) :
  ev_content e <> None -> exists out, code_result e = inr out.
Proof.
  intros Hc. destruct (code_result e) as [err|out] eqn:E; [|by eauto].
  exfalso. apply Hc. apply code_result_none_content.
  unfold code_result in E |- *. destruct (ev_content e) as [c|]; [|done].
  destruct (content_parts c) as [[|p ps]|]; try done.
  destruct (part_function_response p) as [fr|]; [|done].
  destruct (fr_response fr) as [rc|]; [|done].
  case_decide; [done|]. destruct (rc !! "result"); [|done].
  by destruct (String.eqb _ _).
Qed.

(** The printer runs the events one after the other: on a concatenation it
    prints what the first list prints and, unless that raised, goes on with
    the second. *)
Theorem show_python_code_and_result_app (r1 r2 : list Event) :
  show_python_code_and_result (app r1 r2) =
    match show_python_code_and_result r1 with
    | (o1, None) =>
        (app o1 (show_python_code_and_result r2).1,
         (show_python_code_and_result r2).2)
    | (o1, Some err) => (o1, Some err)
    end.
Proof.
  induction r1 as [|e r1 IH]; simpl.
  - by destruct (show_python_code_and_result r2).
  - destruct (code_result e) as [err|out]; [done|].
    rewrite IH.
    destruct (show_python_code_and_result r1) as [o1 [err|]]; simpl; [done|].
    by rewrite app_assoc.
Qed.

(** An event without [content] stops the loop with an [AttributeError]
    (the guard reads [response[i].content.parts] without checking
    [content]): the lines of the events before it are printed and the events
    after it are never looked at. *)
Theorem show_python_code_and_result_missing_content
    (before : list Event) (e : Event) (after : list Event)
    (Hbefore : Forall (fun x => ev_content x <> None) before)
    (He : ev_content e = None) :
  show_python_code_and_result (app before (e :: after)) =
    ((show_python_code_and_result before).1, Some (AttributeError "parts")).
Proof.
  rewrite show_python_code_and_result_app.
  assert (Hb : (show_python_code_and_result before).2 = None).
  { induction Hbefore as [|x xs Hx _ IH]; [done|]. simpl.
    destruct (code_result_content x Hx) as [out ->].
    destruct (show_python_code_and_result xs) as [o err]. done. }
  destruct (show_python_code_and_result before) as [o1 err1]; simpl in Hb |- *.
  subst err1. simpl.
  apply code_result_none_content in He. rewrite He. simpl.
  by rewrite app_nil_r.
Qed.

(** The printer prints at most one line per event. *)
Theorem show_python_code_and_result_length (response : list Event) :
  length (show_python_code_and_result response).1 <= length response.
Proof.
  induction response as [|e es IH]; simpl; [lia|].
  destruct (code_result e) as [err|[r|]]; simpl; [lia| |];
    destruct (show_python_code_and_result es) as [o err]; simpl in *; lia.
Qed.

(** Every line the printer prints comes from an event of the response whose
    first part is a function response with a ["result"] entry other than
    the bare fence ["```"]: a result containing ["tool_code"] is printed as
    code with every ["tool_code"] replaced by nothing, any other result is
    printed as it is. *)
Theorem show_python_code_and_result_lines (response : list Event) (line : string) :
  line ∈ (show_python_code_and_result response).1 ->
  exists e c p ps fr rc r,
    e ∈ response /\ ev_content e = Some c /\ content_parts c = Some (p :: ps) /\
    part_function_response p = Some fr /\ fr_response fr = Some rc /\
    rc !! "result" = Some r /\ r <> "```" /\
    ((py_contains "tool_code" r = true /\
      line = py_print ["Generated Python Code >> "; py_replace "tool_code" "" r]) \/
     (py_contains "tool_code" r = false /\
      line = py_print ["Generated Python Response >> "; r])).
Proof.
  induction response as [|e es IH]; simpl; [by rewrite elem_of_nil|].
  destruct (code_result e) as [err|out] eqn:E; simpl; [by rewrite elem_of_nil|].
  destruct (show_python_code_and_result es) as [o err] eqn:Es; simpl in *.
  rewrite elem_of_app. intros [Hl|Hl].
  - destruct out as [r|]; [|by apply elem_of_nil in Hl].
    apply list_elem_of_singleton in Hl. subst line.
    unfold code_result in E.
    destruct (ev_content e) as [c|] eqn:Ec; [|done].
    destruct (content_parts c) as [[|p ps]|] eqn:Ep; try done.
    destruct (part_function_response p) as [fr|] eqn:Ef; [|done].
    destruct (fr_response fr) as [rc|] eqn:Er; [|done].
    case_decide; [done|].
    destruct (rc !! "result") as [r'|] eqn:Ek; [|done].
    destruct (String.eqb r' "```") eqn:Eq; [done|].
    injection E as <-.
    exists e, c, p, ps, fr, rc, r'.
    split; [apply list_elem_of_here|].
    do 5 (split; [done|]).
    split; [by apply String.eqb_neq|].
    unfold code_line. destruct (py_contains "tool_code" r'); [left|right]; done.
  - destruct (IH Hl) as (e' & c & p & ps & fr & rc & r & Hin & Hrest).
    exists e', c, p, ps, fr, rc, r.
    split; [by apply list_elem_of_further|exact Hrest].
Qed.

(** ** The [run_session] helpers (Day_3) *)

(** The newline character (Python's ["\n"]). *)
Definition nl : string := String "010"%char EmptyString.

(** An ADK [Session], by the one field the helpers read. *)
Record Session := { session_id : string }.

(** The session service the helpers call, as its two methods behave on
    [(app_name, user_id, session_id)]: [create_session] returns a session
    or raises, [get_session] returns a session, [None], or raises. *)
Record SessionService := {
  create_session : string -> string -> string -> PyError + Session;
  get_session : string -> string -> string -> PyError + option Session }.

(** A [Runner]: its [app_name], and what [run_async(user_id, session_id,
    new_message)] yields: the events in order, and the exception that ended
    the stream, if any. *)
Record Runner := {
  runner_app_name : string;
  run_async : string -> string -> Content -> list Event * option PyError }.

(** What a run of a helper does, in order: a line printed, or a query sent
    to the runner on a session id. *)
Inductive Effect :=
  | Printed (line : string)
  | RanQuery (session : string) (new_message : Content).

(** The [user_queries] argument: [None], a [str] or a [list[str]]. *)
Inductive UserQueries :=
  | QNone
  | QStr (q : string)
  | QList (qs : list string).

(** [types.Content(role="user", parts=[types.Part(text=query)])]. *)
Definition user_content (q : string) : Content :=
  {| content_role := Some "user";
     content_parts := Some [{| part_text := Some q; part_function_response := None |}] |}.

(** [try: create_session(...) except: get_session(...)]: the bare [except]
    catches any exception of [create_session]. *)
Definition acquire_session (svc : SessionService) (app user sid : string)
  : PyError + option Session :=
  match create_session svc app user sid with
  | inr s => inr (Some s)
  | inl _ => get_session svc app user sid
  end.

(** Text of the first part of an event's content when it is a non-empty
    string other than ["None"] ([if text and text != "None"]). *)
Definition first_text (e : Event) : option string :=
  match ev_content e with
  | Some c =>
      match content_parts c with
      | Some (p :: _) =>
          match part_text p with
          | Some t => if String.eqb t "" || String.eqb t "None" then None else Some t
          | None => None
          end
      | _ => None
      end
  | None => None
  end.

Section Queries.
(** The line printed for one streamed event, if any. *)
Variable event_line : Event -> option string.
Variable runner : Runner.
Variable user_id : string.

(** [for query in user_queries: print(...); async for event in
    runner_instance.run_async(...): ...]; [session.id] is read at each
    call, so a [None] session raises there. *)
Fixpoint run_queries (session : option Session) (qs : list string)
  : list Effect * option PyError :=
  match qs with
  | [] => ([], None)
  | q :: qs' =>
      let user_line := Printed (nl ++ "User > " ++ q) in
      match session with
      | None => ([user_line], Some (AttributeError "id"))
      | Some s =>
          let '(evs, serr) := run_async runner user_id (session_id s) (user_content q) in
          let shown := map Printed (omap event_line evs) in
          match serr with
          | Some err => (user_line :: RanQuery (session_id s) (user_content q) :: shown, Some err)
          | None =>
              let '(rest, err) := run_queries session qs' in
              (app (user_line :: RanQuery (session_id s) (user_content q) :: shown) rest, err)
          end
      end
  end.
End Queries.

(** D3b files ([D3b_Memory_lnjest_and_Reterive_test.py],
    [D3b_Memory_Workflow.py], [D3b_Automate_Memory_Storage_using_Callbacks.py]):
    module constants. *)
Definition D3b_APP_NAME : string := "MemoryDemoApp".
Definition D3b_USER_ID : string := "demo_user".

(** The D3b filter: [if event.is_final_response() and event.content and
    event.content.parts: text = ...; if text and text != "None":
    print(f"Model: > {text}")]. *)
Definition d3b_event_line (e : Event) : option string :=
  if ev_final_response e then (fun t => "Model: > " ++ t) <$> first_text e else None.

(** [run_session] of the D3b files (e.g. D3b_Memory_lnjest_and_Reterive_test.py,
    lines 60-92). *)
Definition run_session_d3b (svc : SessionService) (runner_instance : Runner)
    (user_queries : UserQueries) (sid : string) : list Effect * option PyError :=
  let header := Printed (nl ++ "### Session: " ++ sid) in
  match acquire_session svc D3b_APP_NAME D3b_USER_ID sid with
  | inl err => ([header], Some err)
  | inr session =>
      let qs := match user_queries with
                | QNone => None
                | QStr q => Some [q]
                | QList qs => Some qs
                end in
      match qs with
      | None => ([header], Some (TypeError "'NoneType' object is not iterable"))
      | Some qs =>
          let '(out, err) := run_queries d3b_event_line runner_instance D3b_USER_ID session qs in
          (header :: out, err)
      end
  end.

(** D3a ([D3a_TC3_Memory_with_Context_Management.py]): module constants. *)
Definition D3a_USER_ID : string := "default".
Definition D3a_MODEL_NAME : string := "gemini-2.5-flash-lite".

(** The D3a filter: [if event.content and event.content.parts: if
    parts[0].text != "None" and parts[0].text: print(f"{MODEL_NAME} > ", text)]
    (no [is_final_response] test). *)
Definition d3a_event_line (e : Event) : option string :=
  (fun t => py_print [D3a_MODEL_NAME ++ " > "; t]) <$> first_text e.

(** Python truthiness of [user_queries]. *)
Definition queries_truthy (uq : UserQueries) : bool :=
  match uq with
  | QNone => false
  | QStr q => negb (String.eqb q "")
  | QList qs => negb (bool_decide (qs = []))
  end.

(** [run_session] of D3a (lines 58-104). *)
Definition run_session_d3a (svc : SessionService) (runner_instance : Runner)
    (user_queries : UserQueries) (session_name : string)
  : list Effect * option PyError :=
  let header := Printed (nl ++ " ### Session: " ++ session_name) in
  let app_name := runner_app_name runner_instance in
  match acquire_session svc app_name D3a_USER_ID session_name with
  | inl err => ([header], Some err)
  | inr session =>
      if queries_truthy user_queries then
        let qs := match user_queries with
                  | QStr q => [q]
                  | QList qs => qs
                  | QNone => []
                  end in
        let '(out, err) := run_queries d3a_event_line runner_instance D3a_USER_ID session qs in
        (header :: out, err)
      else ([header; Printed "No queries!"], None)
  end.

(** *** Properties of the [run_session] helpers *)

(** A copy of a runner whose streams leave out the events that are not
    final responses. *)
Definition drop_nonfinal (r : Runner) : Runner :=
  {| runner_app_name := runner_app_name r;
     run_async := fun u s m =>
       let '(evs, err) := run_async r u s m in (List.filter ev_final_response evs, err) |}.

Lemma omap_d3b_event_line_filter (evs : list Event) :
  omap d3b_event_line (List.filter ev_final_response evs) = omap d3b_event_line evs.
Proof.
  induction evs as [|e evs IH]; [done|]. cbn in IH |- *.
  destruct (ev_final_response e) eqn:E; cbn.
  - by rewrite IH.
  - unfold d3b_event_line at 2. rewrite E. exact IH.
Qed.


(** D3a: with no queries ([None], [""] or [[]]) [run_session] prints
    ["No queries!"] after acquiring the session and never calls the runner. *)
Theorem run_session_d3a_no_queries (svc : SessionService) (r : Runner)
    (uq : UserQueries) (session_name : string) (session : option Session)
    (Huq : uq = QNone \/ uq = QStr "" \/ uq = QList [])
    (Hs : acquire_session svc (runner_app_name r) D3a_USER_ID session_name = inr session) :
  run_session_d3a svc r uq session_name =
    ([Printed (nl ++ " ### Session: " ++ session_name); Printed "No queries!"], None).
Proof.
  unfold run_session_d3a. rewrite Hs.
  by destruct Huq as [->|[->| ->]].
Qed.

(** D3b: the empty string is a query like any other: [run_session] with
    [""] sends one message with the empty text to the runner. *)
Theorem run_session_d3b_empty_string (svc : SessionService) (r : Runner)
    (sid : string) (s : Session) (evs : list Event)
    (Hs : acquire_session svc D3b_APP_NAME D3b_USER_ID sid = inr (Some s))
    (Hr : run_async r D3b_USER_ID (session_id s) (user_content "") = (evs, None)) :
  run_session_d3b svc r (QStr "") sid =
    (app [Printed (nl ++ "### Session: " ++ sid); Printed (nl ++ "User > ");
          RanQuery (session_id s) (user_content "")]
         (map Printed (omap d3b_event_line evs)), None).
Proof.
  unfold run_session_d3b. rewrite Hs. simpl. rewrite Hr. simpl.
  by rewrite app_nil_r.
Qed.

(** D3b: only final responses are shown; whatever events that are not
    final responses a runner yields, [run_session] does exactly the same as
    with a runner that does not yield them. *)
Theorem run_session_d3b_ignores_nonfinal (svc : SessionService) (r : Runner)
    (uq : UserQueries) (sid : string) :
  run_session_d3b svc r uq sid = run_session_d3b svc (drop_nonfinal r) uq sid.
Proof.
  unfold run_session_d3b.
  destruct (acquire_session svc D3b_APP_NAME D3b_USER_ID sid) as [err|session]; [done|].
  assert (Hq : forall qs,
    run_queries d3b_event_line r D3b_USER_ID session qs =
    run_queries d3b_event_line (drop_nonfinal r) D3b_USER_ID session qs).
  { induction qs as [|q qs IH]; [done|]. simpl.
    destruct session as [s|]; [|done]. simpl.
    destruct (run_async r D3b_USER_ID (session_id s) (user_content q)) as [evs serr].
    rewrite omap_d3b_event_line_filter, IH. done. }
  destruct uq as [|q|qs]; [done| |]; by rewrite Hq.
Qed.


(** D3b: when [create_session] raises and [get_session] returns [None],
    [run_session] fails with an [AttributeError] on [session.id] at the
    first query, after printing that query and before sending anything; with
    an empty list of queries it finishes without error. *)
Theorem run_session_d3b_session_not_found (svc : SessionService) (r : Runner)
    (sid : string) (err : PyError) (q : string) (qs : list string)
    (Hc : create_session svc D3b_APP_NAME D3b_USER_ID sid = inl err)
    (Hg : get_session svc D3b_APP_NAME D3b_USER_ID sid = inr None) :
  run_session_d3b svc r (QList (q :: qs)) sid =
    ([Printed (nl ++ "### Session: " ++ sid); Printed (nl ++ "User > " ++ q)],
     Some (AttributeError "id")) /\
  run_session_d3b svc r (QList []) sid =
    ([Printed (nl ++ "### Session: " ++ sid)], None).
Proof. unfold run_session_d3b, acquire_session. rewrite Hc, Hg. done. Qed.

(** D3b: when both [create_session] and [get_session] raise, [run_session]
    raises the exception of [get_session] after printing its header, and
    sends no query. *)
Theorem run_session_d3b_create_and_get_raise (svc : SessionService) (r : Runner)
    (uq : UserQueries) (sid : string) (err1 err2 : PyError)
    (Hc : create_session svc D3b_APP_NAME D3b_USER_ID sid = inl err1)
    (Hg : get_session svc D3b_APP_NAME D3b_USER_ID sid = inl err2) :
  run_session_d3b svc r uq sid = ([Printed (nl ++ "### Session: " ++ sid)], Some err2).
Proof. unfold run_session_d3b, acquire_session. rewrite Hc, Hg. done. Qed.


(** ** [get_adk_proxy_url] (Day_1/TC1a.py, lines 39-103) *)

(** [lst[i]] on a list: [IndexError] out of range. *)
Definition list_getitem {A} (l : list A) (i : nat) : PyError + A :=
  match l !! i with Some x => inr x | None => inl IndexError end.

Definition PROXY_HOST : string := "https://kkb-production.jupyter-proxy.kaggle.net".
Definition ADK_PORT : string := "8000".

(** The HTML block of lines 75-96; the only value interpolated into that
    fixed template is [url], so it is kept by that value. *)
Record StyledHtml := { html_url : string }.

(** What the function shows: [display(HTML(styled_html))] or a [print]. *)
Inductive UiOutput :=
  | Displayed (h : StyledHtml)
  | PrintedUi (line : string).

(** The module state the function reads: [ipython_ok] is whether the
    imports of lines 39-41 succeeded (then [IPYTHON_IMPORT_ERR] is [None] and
    [display], [HTML] are bound; otherwise all three names are [None] and
    [IPYTHON_IMPORT_ERR] is set). [servers] is what
    [list(list_running_servers())] returns: one dict per running server. *)
Definition get_adk_proxy_url (ipython_ok : bool) (servers : list (gmap string string))
  : list UiOutput * (PyError + string) :=
  if negb ipython_ok then
    ([], inl (RuntimeError
      ("IPython and jupyter-server are required for get_adk_proxy_url(). "
       ++ "Install them with `pip install ipython jupyter-server`.")))
  else
  match servers with
  | [] => ([], inl (Exception "No running Jupyter servers found."))
  | server0 :: _ =>
      match server0 !! "base_url" with
      | None => ([], inl (Exn (KeyError "base_url")))
      | Some baseURL =>
          let path_parts := py_split "/" baseURL in
          let parsed :=
            match list_getitem path_parts 2, list_getitem path_parts 3 with
            | inr kernel, inr token => inr (kernel, token)
            | inl e, _ | inr _, inl e => inl e
            end in
          match parsed with
          | inl IndexError =>
              ([], inl (Exception ("Could not parse kernel/token from base URL: " ++ baseURL)))
          | inl e => ([], inl e)
          | inr (kernel, token) =>
              let url_prefix := "/k/" ++ kernel ++ "/" ++ token ++ "/proxy/proxy/" ++ ADK_PORT in
              let url := PROXY_HOST ++ url_prefix in
              let styled_html := {| html_url := url |} in
              (* [if display and HTML]: both are bound exactly when the imports
                 succeeded *)
              let shown := if ipython_ok then Displayed styled_html
                           else PrintedUi (py_print ["Open the ADK Web UI at:"; url]) in
              ([shown], inr url_prefix)
          end
      end
  end.

Example get_adk_proxy_url_kaggle :
  get_adk_proxy_url true [<["base_url" := "/k/123/tok/"]> ∅] =
    ([Displayed {| html_url := PROXY_HOST ++ "/k/123/tok/proxy/proxy/8000" |}],
     inr "/k/123/tok/proxy/proxy/8000").
Proof. reflexivity. Qed.

(** *** Properties of [get_adk_proxy_url] *)

(** [s] has no character [sep]. *)
Definition no_char (sep : ascii) (s : string) : Prop :=
  Forall (fun c => c <> sep) (list_ascii_of_string s).

Lemma py_split_not_nil (sep : ascii) (s : string) : py_split sep s <> [].
Proof.
  induction s as [|c s IH]; simpl; [done|].
  destruct (Ascii.eqb c sep); [done|]. by destruct (py_split sep s).
Qed.

Lemma py_split_no_sep_app (sep : ascii) (x y : string) :
  no_char sep x ->
  py_split sep (x ++ y) =
    match py_split sep y with p :: ps => (x ++ p) :: ps | [] => [x] end.
Proof.
  unfold no_char. induction x as [|c x IH]; simpl; intros Hx.
  - destruct (py_split sep y) eqn:E; [by apply py_split_not_nil in E|done].
  - inversion Hx as [|? ? Hc Hx']; subst.
    rewrite IH by exact Hx'.
    assert (Ascii.eqb c sep = false) as -> by (by apply Ascii.eqb_neq).
    destruct (py_split sep y) eqn:E; [by apply py_split_not_nil in E|done].
Qed.

Lemma string_append_nil_r (s : string) : s ++ "" = s.
Proof. induction s as [|c s IH]; [done|]. exact (f_equal (String c) IH). Qed.

Lemma string_single_app (c : ascii) (y : string) : String c "" ++ y = String c y.
Proof. reflexivity. Qed.

Lemma py_split_field (sep : ascii) (x y : string) :
  no_char sep x -> py_split sep (x ++ String sep y) = x :: py_split sep y.
Proof.
  intros Hx. rewrite py_split_no_sep_app by exact Hx. simpl.
  rewrite Ascii.eqb_refl. by rewrite string_append_nil_r.
Qed.

(** Round trip: for a base URL [a/b/kernel/token] (optionally followed by
    a further ['/...']) whose four fields have no ['/'], the function
    returns ["/k/<kernel>/<token>/proxy/proxy/8000"] and displays the button
    for that URL on the proxy host, reading only the first server. *)
Theorem get_adk_proxy_url_roundtrip (a b kernel token rest : string)
    (server0 : gmap string string) (others : list (gmap string string))
    (Ha : no_char "/" a) (Hb : no_char "/" b)
    (Hk : no_char "/" kernel) (Ht : no_char "/" token)
    (Hrest : rest = "" \/ exists r', rest = String "/" r')
    (Hbase : server0 !! "base_url" =
               Some (a ++ "/" ++ b ++ "/" ++ kernel ++ "/" ++ token ++ rest)) :
  get_adk_proxy_url true (server0 :: others) =
    ([Displayed {| html_url :=
         PROXY_HOST ++ "/k/" ++ kernel ++ "/" ++ token ++ "/proxy/proxy/" ++ ADK_PORT |}],
     inr ("/k/" ++ kernel ++ "/" ++ token ++ "/proxy/proxy/" ++ ADK_PORT)).
Proof.
  unfold get_adk_proxy_url. simpl negb. cbv iota. rewrite Hbase.
  rewrite !string_single_app, !py_split_field by assumption.
  assert (Htok : exists ps, py_split "/" (token ++ rest) = token :: ps).
  { destruct Hrest as [->|[r' ->]].
    - rewrite py_split_no_sep_app by exact Ht. simpl.
      rewrite string_append_nil_r. by eexists.
    - eexists. by apply py_split_field. }
  destruct Htok as [ps ->]. reflexivity.
Qed.

(** A base URL that splits into fewer than four ['/']-separated parts has
    no kernel or token: the [IndexError] is turned into an [Exception]
    naming the URL, and nothing is shown. *)
Theorem get_adk_proxy_url_unparsable (server0 : gmap string string)
    (others : list (gmap string string)) (baseURL : string)
    (Hbase : server0 !! "base_url" = Some baseURL)
    (Hshort : length (py_split "/" baseURL) < 4) :
  get_adk_proxy_url true (server0 :: others) =
    ([], inl (Exception ("Could not parse kernel/token from base URL: " ++ baseURL))).
Proof.
  unfold get_adk_proxy_url. simpl negb. cbv iota. rewrite Hbase.
  unfold list_getitem.
  rewrite (lookup_ge_None_2 (py_split "/" baseURL) 3) by lia.
  by destruct (py_split "/" baseURL !! 2).
Qed.

(** The fallback [print] of line 101 is never reached: whenever the
    function returns a prefix it has displayed exactly the button for the
    proxy host followed by that prefix, and whenever it raises it has shown
    nothing. *)
Theorem get_adk_proxy_url_output (ipython_ok : bool)
    (servers : list (gmap string string)) :
  match (get_adk_proxy_url ipython_ok servers).2 with
  | inr url_prefix =>
      (get_adk_proxy_url ipython_ok servers).1 =
        [Displayed {| html_url := PROXY_HOST ++ url_prefix |}]
  | inl _ => (get_adk_proxy_url ipython_ok servers).1 = []
  end.
Proof.
  unfold get_adk_proxy_url.
  destruct ipython_ok; simpl; [|done].
  destruct servers as [|server0 others]; [done|].
  destruct (server0 !! "base_url") as [baseURL|]; [|done].
  destruct (list_getitem (py_split "/" baseURL) 2) as [e|kernel];
    [destruct e; done|].
  destruct (list_getitem (py_split "/" baseURL) 3) as [e|token];
    [destruct e; done|].
  done.
Qed.


(** ** The API-key setup every script starts with *)

(** Python truthiness of [os.getenv(...)]: [None] and [""] are false. *)
Definition truthy (v : option string) : bool :=
  match v with Some s => negb (String.eqb s "") | None => false end.

(** [os.getenv("GOOGLE_API_KEY") or os.getenv("API_KEY")]. *)
Definition getenv_api_key (env : gmap string string) : option string :=
  if truthy (env !! "GOOGLE_API_KEY") then env !! "GOOGLE_API_KEY" else env !! "API_KEY".

(** Day_2/D2_TC2_Improving_Agent_Reliability_with_Code.py, lines 19-23 (the
    Day_3 scripts have the same lines): the environment after the setup, or
    the [ValueError] raised. [env] is the environment after [load_dotenv]. *)
Definition d2_configure_env (env : gmap string string) : PyError + gmap string string :=
  let GOOGLE_API_KEY := getenv_api_key env in
  match GOOGLE_API_KEY with
  | Some k =>
      if truthy GOOGLE_API_KEY then inr (<["GOOGLE_API_KEY" := k]> env)
      else inl (ValueError "Missing GOOGLE_API_KEY/API_KEY. Set it in .env or environment before running.")
  | None =>
      inl (ValueError "Missing GOOGLE_API_KEY/API_KEY. Set it in .env or environment before running.")
  end.

(** [os.environ.setdefault(k, v)]. *)
Definition env_setdefault (env : gmap string string) (k v : string) : gmap string string :=
  match env !! k with Some _ => env | None => <[k := v]> env end.

(** Day_1/TC1a.py, lines 18-27: the same lookup with a [RuntimeError], then
    [os.environ.setdefault("GOOGLE_GENAI_USE_VERTEXAI", "FALSE")]. *)
Definition tc1a_configure_env (env : gmap string string) : PyError + gmap string string :=
  let GOOGLE_API_KEY := getenv_api_key env in
  let missing := RuntimeError
    "Missing GOOGLE_API_KEY (or API_KEY) in .env file. Add it before running this script." in
  match GOOGLE_API_KEY with
  | Some k =>
      if truthy GOOGLE_API_KEY then
        let env1 := <["GOOGLE_API_KEY" := k]> env in
        inr (env_setdefault env1 "GOOGLE_GENAI_USE_VERTEXAI" "FALSE")
      else inl missing
  | None => inl missing
  end.

(** *** Properties of the setup *)

(** The setup succeeds exactly when [GOOGLE_API_KEY] or [API_KEY] is set
    to a non-empty value; it then exports as [GOOGLE_API_KEY] the value of
    [GOOGLE_API_KEY] when that is non-empty and the value of [API_KEY]
    otherwise (an empty [GOOGLE_API_KEY] counts as unset), and changes no
    other variable. *)
Theorem d2_configure_env_spec (env : gmap string string) :
  match d2_configure_env env with
  | inr env' =>
      exists k, k <> "" /\ env' = <["GOOGLE_API_KEY" := k]> env /\
        (env !! "GOOGLE_API_KEY" = Some k \/
         ((env !! "GOOGLE_API_KEY" = None \/ env !! "GOOGLE_API_KEY" = Some "") /\
          env !! "API_KEY" = Some k))
  | inl err =>
      err = ValueError "Missing GOOGLE_API_KEY/API_KEY. Set it in .env or environment before running." /\
      (env !! "GOOGLE_API_KEY" = None \/ env !! "GOOGLE_API_KEY" = Some "") /\
      (env !! "API_KEY" = None \/ env !! "API_KEY" = Some "")
  end.
Proof.
  unfold d2_configure_env, getenv_api_key, truthy.
  destruct (env !! "GOOGLE_API_KEY") as [g|]; destruct (env !! "API_KEY") as [a|].
  all: try (destruct (String.eqb g "") eqn:Eg0; simpl).
  all: try (destruct (String.eqb a "") eqn:Ea0; simpl).
  all: try (rewrite Eg0; simpl).
  all: try (rewrite Ea0; simpl).
  all: try (apply String.eqb_eq in Eg0; subst g).
  all: try (apply String.eqb_eq in Ea0; subst a).
  all: try apply String.eqb_neq in Eg0.
  all: try apply String.eqb_neq in Ea0.
  all: simpl.
  all: first [ naive_solver
             | (eexists; split; [eassumption|]; split; [reflexivity|]; naive_solver) ].
Qed.

(** TC1a: after a successful setup [GOOGLE_GENAI_USE_VERTEXAI] keeps a
    value the environment already had and is ["FALSE"] otherwise, and the
    exported [GOOGLE_API_KEY] is the one the D2 setup exports. *)
Theorem tc1a_configure_env_vertexai (env : gmap string string) :
  match tc1a_configure_env env with
  | inr env' =>
      env' !! "GOOGLE_GENAI_USE_VERTEXAI" =
        Some (default "FALSE" (env !! "GOOGLE_GENAI_USE_VERTEXAI")) /\
      env' !! "GOOGLE_API_KEY" = getenv_api_key env /\
      (forall k, k <> "GOOGLE_API_KEY" -> k <> "GOOGLE_GENAI_USE_VERTEXAI" ->
         env' !! k = env !! k)
  | inl _ => truthy (getenv_api_key env) = false
  end.
Proof.
  unfold tc1a_configure_env.
  destruct (getenv_api_key env) as [key|] eqn:Ek; [|done].
  destruct (truthy (Some key)) eqn:Et; [|done].
  unfold env_setdefault.
  rewrite lookup_insert_ne by done.
  destruct (env !! "GOOGLE_GENAI_USE_VERTEXAI") as [v|] eqn:Ev; simpl.
  - rewrite lookup_insert_ne by done. rewrite Ev, lookup_insert_eq.
    split; [done|]. split; [done|].
    intros k Hk _. by rewrite lookup_insert_ne by congruence.
  - rewrite lookup_insert_eq. split; [done|].
    rewrite lookup_insert_ne by done. rewrite lookup_insert_eq. split; [done|].
    intros k Hk Hv. rewrite lookup_insert_ne by congruence.
    by rewrite lookup_insert_ne by congruence.
Qed.

(** ** More properties of the currency tools *)



(* ------------------------------------------------------------------ *)
(** ** Concrete runs *)

(** A code-executor event whose result is generated code. *)
Definition ev_code : Event :=
  {| ev_content := Some {| content_role := Some "model";
       content_parts := Some [{| part_text := None;
         part_function_response := Some {| fr_response :=
           Some (<["result" := "tool_codeprint(1)"]> ∅) |} |}] |};
     ev_final_response := false |}.

(** An event without content. *)
Definition ev_no_content : Event := {| ev_content := None; ev_final_response := true |}.

(** A session service where every session can be created. *)
Definition svc_fresh : SessionService :=
  {| create_session := fun _ _ sid => inr {| session_id := sid |};
     get_session := fun _ _ _ => inr None |}.


(** A session service where creation fails and nothing is found. *)
Definition svc_missing : SessionService :=
  {| create_session := fun _ _ _ => inl (Exception "unavailable");
     get_session := fun _ _ _ => inr None |}.

(** A session service where both methods raise. *)
Definition svc_down : SessionService :=
  {| create_session := fun _ _ _ => inl (Exception "unavailable");
     get_session := fun _ _ _ => inl (RuntimeError "database locked") |}.

(** A runner that answers each message with one final event echoing it. *)
Definition runner_echo : Runner :=
  {| runner_app_name := "research_app_compacting";
     run_async := fun _ _ m => ([{| ev_content := Some m; ev_final_response := true |}], None) |}.


Lemma show_python_code_and_result_missing_content_witness :
  show_python_code_and_result [ev_code; ev_no_content; ev_code] =
    ((show_python_code_and_result [ev_code]).1, Some (AttributeError "parts")).
Proof.
  apply (show_python_code_and_result_missing_content [ev_code] ev_no_content [ev_code]).
  - constructor; [discriminate|constructor].
  - reflexivity.
Defined.

Lemma show_python_code_and_result_lines_witness :
  exists e c p ps fr rc r,
    e ∈ [ev_code] /\ ev_content e = Some c /\ content_parts c = Some (p :: ps) /\
    part_function_response p = Some fr /\ fr_response fr = Some rc /\
    rc !! "result" = Some r /\ r <> "```" /\
    ((py_contains "tool_code" r = true /\
      code_line "tool_codeprint(1)" =
        py_print ["Generated Python Code >> "; py_replace "tool_code" "" r]) \/
     (py_contains "tool_code" r = false /\
      code_line "tool_codeprint(1)" = py_print ["Generated Python Response >> "; r])).
Proof.
  apply (show_python_code_and_result_lines [ev_code] (code_line "tool_codeprint(1)")).
  assert (E : (show_python_code_and_result [ev_code]).1 = [code_line "tool_codeprint(1)"])
    by reflexivity.
  rewrite E. apply list_elem_of_here.
Defined.

Lemma run_session_d3a_no_queries_witness :
  run_session_d3a svc_fresh runner_echo (QStr "") "compaction_demo" =
    ([Printed (nl ++ " ### Session: " ++ "compaction_demo"); Printed "No queries!"], None).
Proof.
  apply (run_session_d3a_no_queries svc_fresh runner_echo (QStr "") "compaction_demo"
           (Some {| session_id := "compaction_demo" |})).
  - right; left; reflexivity.
  - reflexivity.
Defined.

Lemma run_session_d3b_empty_string_witness :
  run_session_d3b svc_fresh runner_echo (QStr "") "conversation-01" =
    (app [Printed (nl ++ "### Session: " ++ "conversation-01"); Printed (nl ++ "User > ");
          RanQuery "conversation-01" (user_content "")]
         (map Printed (omap d3b_event_line
            [{| ev_content := Some (user_content ""); ev_final_response := true |}])), None).
Proof.
  apply (run_session_d3b_empty_string svc_fresh runner_echo "conversation-01"
           {| session_id := "conversation-01" |}); reflexivity.
Defined.


Lemma run_session_d3b_session_not_found_witness :
  run_session_d3b svc_missing runner_echo (QList ["hello"]) "s1" =
    ([Printed (nl ++ "### Session: " ++ "s1"); Printed (nl ++ "User > " ++ "hello")],
     Some (AttributeError "id")) /\
  run_session_d3b svc_missing runner_echo (QList []) "s1" =
    ([Printed (nl ++ "### Session: " ++ "s1")], None).
Proof.
  apply (run_session_d3b_session_not_found svc_missing runner_echo "s1"
           (Exception "unavailable") "hello" []); reflexivity.
Defined.

Lemma run_session_d3b_create_and_get_raise_witness :
  run_session_d3b svc_down runner_echo (QStr "hello") "s1" =
    ([Printed (nl ++ "### Session: " ++ "s1")], Some (RuntimeError "database locked")).
Proof.
  apply (run_session_d3b_create_and_get_raise svc_down runner_echo (QStr "hello") "s1"
           (Exception "unavailable")); reflexivity.
Defined.


Lemma get_adk_proxy_url_roundtrip_witness :
  get_adk_proxy_url true [<["base_url" := "/k/123/tok/"]> ∅] =
    ([Displayed {| html_url :=
         PROXY_HOST ++ "/k/" ++ "123" ++ "/" ++ "tok" ++ "/proxy/proxy/" ++ ADK_PORT |}],
     inr ("/k/" ++ "123" ++ "/" ++ "tok" ++ "/proxy/proxy/" ++ ADK_PORT)).
Proof.
  apply (get_adk_proxy_url_roundtrip "" "k" "123" "tok" "/").
  - constructor.
  - repeat (constructor; [discriminate|]). constructor.
  - repeat (constructor; [discriminate|]). constructor.
  - repeat (constructor; [discriminate|]). constructor.
  - right. exists "". reflexivity.
  - reflexivity.
Defined.

Lemma get_adk_proxy_url_unparsable_witness :
  get_adk_proxy_url true [<["base_url" := "/k/123"]> ∅] =
    ([], inl (Exception ("Could not parse kernel/token from base URL: " ++ "/k/123"))).
Proof.
  apply (get_adk_proxy_url_unparsable (<["base_url" := "/k/123"]> ∅) [] "/k/123").
  - reflexivity.
  - simpl. lia.
Defined.


